(** * sway-monitor-manager: a shallow embedding of [sway_monitor_manager.py]

    The program shells out to [swaymsg], reads and writes one JSON file of
    named monitor layouts ("workspaces") and talks to the user through
    terminal prompts.  The embedding keeps that shape:

    - Python text is a [string]; Python [dict]s with a fixed set of keys are
      records whose optional keys are [option] fields; the description
      lookup table is a [gmap]; Python [set]s are [gset]s;
    - everything outside the program (the compositor, the terminal, the
      [json] library, the iteration order of a [set]) is an [Env];
    - effects are threaded through a state-and-exception monad [M] over a
      [world] that records the file system, the lines printed, the
      subprocesses run and the prompts shown. *)

From stdpp Require Import gmap strings list fin_maps pretty.
From Stdlib Require Import ZArith Ascii String.

Open Scope Z_scope.
Open Scope string_scope.
Open Scope list_scope.

(* stdpp's solvers clear hypotheses by name; the notice carries no information. *)
Set Warnings "-clear-no-such-hyp".

(** ** Python string operations used by the program

    A character is a code point below 256. *)
Module Py.

(** [str.isspace] on one character: TAB..CR, FS..US, SPACE, NEL, NBSP. *)
Definition isspace (c : ascii) : bool :=
  let n := N_of_ascii c in
  ((9 <=? n) && (n <=? 13) || (28 <=? n) && (n <=? 32)
   || (n =? 133) || (n =? 160))%N.

Fixpoint lstrip (s : string) : string :=
  match s with
  | EmptyString => EmptyString
  | String c s' => if isspace c then lstrip s' else s
  end.

Fixpoint rstrip (s : string) : string :=
  match s with
  | EmptyString => EmptyString
  | String c s' =>
      match rstrip s' with
      | EmptyString => if isspace c then EmptyString else String c EmptyString
      | r => String c r
      end
  end.

(** [s.strip()] *)
Definition strip (s : string) : string := rstrip (lstrip s).

(** [s.lower()] on one character: A..Z and the Latin-1 capitals. *)
Definition lower_char (c : ascii) : ascii :=
  let n := N_of_ascii c in
  if ((65 <=? n) && (n <=? 90)
      || (192 <=? n) && (n <=? 222) && negb (n =? 215))%N
  then ascii_of_N (n + 32) else c.

Fixpoint lower (s : string) : string :=
  match s with
  | EmptyString => EmptyString
  | String c s' => String (lower_char c) (lower s')
  end.

(** [s.split(",")]: the pieces between the commas, never an empty list. *)
Fixpoint split_comma (s : string) : list string :=
  match s with
  | EmptyString => [EmptyString]
  | String c s' =>
      if Ascii.eqb c "," then EmptyString :: split_comma s'
      else match split_comma s' with
           | p :: ps => String c p :: ps
           | [] => [String c EmptyString]
           end
  end.

Definition digit (c : ascii) : option Z :=
  let n := N_of_ascii c in
  if ((48 <=? n) && (n <=? 57))%N then Some (Z.of_N (n - 48)) else None.

(** Digits of a decimal literal; a single underscore may separate two
    digits.  [prev] tells whether the previous character was a digit. *)
Fixpoint digits (acc : Z) (prev : bool) (s : string) : option Z :=
  match s with
  | EmptyString => if prev then Some acc else None
  | String c s' =>
      match digit c with
      | Some d => digits (10 * acc + d) true s'
      | None =>
          if Ascii.eqb c "_" && prev then
            match s' with
            | String c' _ =>
                match digit c' with
                | Some _ => digits acc false s'
                | None => None
                end
            | EmptyString => None
            end
          else None
      end
  end.

(** [int(s)] for a [str] argument; [None] is [ValueError].  (The
    interpreter's limit on the number of digits is not modelled.) *)
Definition int (s : string) : option Z :=
  match strip s with
  | String "-" s' => Z.opp <$> digits 0 false s'
  | String "+" s' => digits 0 false s'
  | s' => digits 0 false s'
  end.

(** Truthiness of a [str]: the empty string is falsy. *)
Definition truthy (s : string) : bool :=
  match s with EmptyString => false | _ => true end.

(** [str(n)] for an [int]. *)
Definition str (n : Z) : string := pretty n.

(** A [bool] inside an f-string. *)
Definition str_bool (b : bool) : string := if b then "True" else "False".

End Py.

(** ** Data model *)

(** One entry of [swaymsg -t get_outputs].  [name] and [active] are indexed
    directly by the program; the other keys are read with [.get] and a
    default, so they may be absent. *)
Module Position.
Record t := Make { x : option Z; y : option Z }.
End Position.

Module Output.
Record t := Make {
  name : string;
  make : option string;
  model : option string;
  serial : option string;
  active : bool;
  transform : option string;
  rect : option Position.t;
}.
End Output.

(** One entry of a workspace's ["monitors"] list. *)
Module MonitorProfile.
Record t := Make {
  description : string;
  state : option string;
  transform : option string;
  position : option Position.t;
}.
End MonitorProfile.

Module Workspace.
Record t := Make {
  name : string;
  monitors : list MonitorProfile.t;
}.
End Workspace.

(** The document stored in the workspaces file.  The ["workspaces"] key is
  read both with [.get] and with indexing, so its absence is modelled. *)
Module Store.
Record t := Make { workspaces : option (list Workspace.t) }.
(** [{"workspaces": []}] *)
Definition empty : t := Make (Some []).
End Store.

Definition WORKSPACES_FILE : string :=
  "/home/mwieland/.config/sway/workspaces.json".

(** ** The outside world *)

(** What the program observes of its environment.  Every answer may depend
    on the interaction so far: the subprocesses already run, the prompts
    already shown. *)
Class Env := {
  (** exit status of a [swaymsg] run *)
  swaymsg_returncode : list (list string) → list string → Z;
  (** what [swaymsg -t get_outputs] writes to its standard output *)
  swaymsg_stdout : list (list string) → string;
  (** [json.loads] on that text; [None] is [JSONDecodeError] *)
  json_loads_outputs : string → option (list Output.t);
  (** [json.load] / [json.dump] on the workspaces file *)
  json_load : string → option Store.t;
  json_dump : Store.t → string;
  (** [inquirer.prompt] for a [Text], a [List] and a [Checkbox] question;
      [None] is a cancelled prompt *)
  prompt_text : list string → string → option string;
  prompt_list : list string → string → list string → option string;
  prompt_checkbox : list string → string → list string → option (list string);
  (** the order in which a [set] of strings is iterated: any order *)
  set_iter : gset string → list string;
  set_iter_perm : ∀ s, set_iter s ≡ₚ elements s;
}.

Record world := World {
  files : gmap string string;       (* path ↦ text of the file *)
  writes : list (string * string);  (* every file written, oldest first *)
  stdout : list string;             (* text of every print, oldest first *)
  issued : list (list string);      (* argv of every subprocess run *)
  asked : list string;              (* message of every prompt shown *)
}.

Inductive exn :=
  | CalledProcessError (returncode : Z) (cmd : list string)
  | KeyError (key : string).

Inductive outcome (A : Type) :=
  | Returned (a : A)
  | Raised (e : exn).
Arguments Returned {A} a.
Arguments Raised {A} e.

(** A computation: runs in a world, returns or raises, leaves a world. *)
Definition M (A : Type) : Type := world → outcome A * world.

#[export] Instance M_ret : MRet M := λ A a w, (Returned a, w).
#[export] Instance M_bind : MBind M := λ A B k m w,
  match m w with
  | (Returned a, w') => k a w'
  | (Raised e, w') => (Raised e, w')
  end.

Definition raise {A} (e : exn) : M A := λ w, (Raised e, w).

(** [for a in l: body(a)] *)
Fixpoint for_each {A} (l : list A) (body : A → M unit) : M unit :=
  match l with
  | [] => mret ()
  | a :: l' => body a ;; for_each l' body
  end.

(** A loop that rebinds a variable: [for a in l: acc = body(acc, a)] *)
Fixpoint for_fold {A S} (l : list A) (acc : S) (body : S → A → M S) : M S :=
  match l with
  | [] => mret acc
  | a :: l' => acc' ← body acc a; for_fold l' acc' body
  end.

(** The newline character, as a string. *)
Definition nl : string := String "010"%char EmptyString.

Definition print (line : string) : M unit := λ w,
  (Returned (),
   World (files w) (writes w) (stdout w ++ [line]) (issued w) (asked w)).

Definition write_file (path text : string) : M unit := λ w,
  (Returned (),
   World (<[path := text]> (files w)) (writes w ++ [(path, text)])
         (stdout w) (issued w) (asked w)).

Definition read_file (path : string) : M (option string) := λ w,
  (Returned (files w !! path), w).

Definition log_run (argv : list string) (w : world) : world :=
  World (files w) (writes w) (stdout w) (issued w ++ [argv]) (asked w).

Definition log_prompt (message : string) (w : world) : world :=
  World (files w) (writes w) (stdout w) (issued w) (asked w ++ [message]).

(** ** The program *)
Section Program.
Context `{Env}.

(** [subprocess.run(argv, check=True)]: a non-zero exit status raises
    [CalledProcessError]. *)
Definition subprocess_run_check (argv : list string) : M unit := λ w,
  let returncode := swaymsg_returncode (issued w) argv in
  if decide (returncode = 0) then (Returned (), log_run argv w)
  else (Raised (CalledProcessError returncode argv), log_run argv w).

(** [json.loads(subprocess.run(["swaymsg", "-t", "get_outputs"],
    capture_output=True, text=True).stdout)]; the exit status is not
    checked, [None] is [JSONDecodeError]. *)
Definition get_outputs : M (option (list Output.t)) := λ w,
  (Returned (json_loads_outputs (swaymsg_stdout (issued w))),
   log_run ["swaymsg"; "-t"; "get_outputs"] w).

Definition ask_text (message : string) : M (option string) := λ w,
  (Returned (prompt_text (asked w) message), log_prompt message w).

Definition ask_list (message : string) (choices : list string)
  : M (option string) := λ w,
  (Returned (prompt_list (asked w) message choices), log_prompt message w).

Definition ask_checkbox (message : string) (choices : list string)
  : M (option (list string)) := λ w,
  (Returned (prompt_checkbox (asked w) message choices), log_prompt message w).

(** *** Compositor client *)

Definition enable_monitor (monitor_name : string) : M unit :=
  print ("Enabling monitor: " +:+ monitor_name) ;;
  subprocess_run_check ["swaymsg"; "output"; monitor_name; "enable"].

Definition disable_monitor (monitor_name : string) : M unit :=
  print ("Disabling monitor: " +:+ monitor_name) ;;
  subprocess_run_check ["swaymsg"; "output"; monitor_name; "disable"].

Definition set_rotation (output_name rotation : string) : M unit :=
  print ("Setting rotation of " +:+ output_name +:+ " to " +:+ rotation) ;;
  subprocess_run_check ["swaymsg"; "output"; output_name; "transform"; rotation].

Definition set_position (output_name : string) (x y : Z) : M unit :=
  print ("Setting position of " +:+ output_name +:+ " to ("
         +:+ Py.str x +:+ ", " +:+ Py.str y +:+ ")") ;;
  subprocess_run_check
    ["swaymsg"; "output"; output_name; "position"; Py.str x; Py.str y].

(** *** Workspace store *)

Definition load_workspaces : M Store.t :=
  content ← read_file WORKSPACES_FILE;
  match content with
  | None => print "1" ;; mret Store.empty
  | Some text =>
      print "2" ;;
      match json_load text with
      | Some workspaces_data => mret workspaces_data
      | None => print "Error parsing workspaces.json." ;; mret Store.empty
      end
  end.

Definition save_workspaces (workspaces_data : Store.t) : M unit :=
  write_file WORKSPACES_FILE (json_dump workspaces_data) ;;
  print ("Workspaces saved to " +:+ WORKSPACES_FILE +:+ ".").

(** *** Activation *)

(** [f"{make} {model} {serial}".strip()] with each part stripped. *)
Definition describe (monitor : Output.t) : string :=
  let make := Py.strip (default "" (Output.make monitor)) in
  let model := Py.strip (default "" (Output.model monitor)) in
  let serial := Py.strip (default "" (Output.serial monitor)) in
  Py.strip (make +:+ " " +:+ model +:+ " " +:+ serial).

(** The mapping from description to output name: a later monitor with the
    same description replaces an earlier one. *)
Definition description_to_output (monitors_data : list Output.t)
  : gmap string string :=
  foldl (λ table monitor, <[describe monitor := Output.name monitor]> table)
        ∅ monitors_data.

(** [description_to_output.get(description)], as the tests [if output_name]
    and [if not output_name] see it: a missing key and an empty name are
    both falsy. *)
Definition resolve (table : gmap string string) (description : string)
  : option string :=
  match table !! description with
  | Some output_name =>
      if Py.truthy output_name then Some output_name else None
  | None => None
  end.

Definition workspace_output_names (table : gmap string string)
    (monitors : list MonitorProfile.t) : list string :=
  foldl (λ (names : list string) monitor_config,
           match resolve table (MonitorProfile.description monitor_config) with
           | Some output_name => (names ++ [output_name])%list
           | None => names
           end)
        [] monitors.

Definition monitors_to_disable (table : gmap string string)
    (monitors : list MonitorProfile.t) (monitors_data : list Output.t)
  : gset string :=
  let all_current_outputs : gset string :=
    list_to_set (Output.name <$> monitors_data) in
  let workspace_outputs_set : gset string :=
    list_to_set (workspace_output_names table monitors) in
  all_current_outputs ∖ workspace_outputs_set.

(** Body of the loop that applies the workspace's monitor configurations.
    The source guards [set_position] with [x is not None and y is not None];
    [x] and [y] come from [.get] with default 0, so with integer coordinates
    the guard always holds and the call is unconditional here.  A stored
    JSON [null] coordinate is outside the typed document model. *)
Definition apply_monitor_config (table : gmap string string)
    (monitor_config : MonitorProfile.t) : M unit :=
  let description := MonitorProfile.description monitor_config in
  let state := default "enable" (MonitorProfile.state monitor_config) in
  let transform := MonitorProfile.transform monitor_config in
  let position :=
    default (Position.Make (Some 0) (Some 0))
            (MonitorProfile.position monitor_config) in
  let x := default 0 (Position.x position) in
  let y := default 0 (Position.y position) in
  match resolve table description with
  | None =>
      print ("Monitor with description '" +:+ description +:+ "' not found.")
  | Some output_name =>
      (if String.eqb state "enable" then enable_monitor output_name
       else if String.eqb state "disable" then disable_monitor output_name
       else mret ()) ;;
      match transform with
      | Some rotation =>
          if Py.truthy rotation then set_rotation output_name rotation
          else mret ()
      | None => mret ()
      end ;;
      set_position output_name x y
  end.

(** [activate_workspace] from the point where the workspace is selected and
    the live outputs are known (the spec's [activate]). *)
Definition activate (selected_workspace : Workspace.t)
    (monitors_data : list Output.t) : M unit :=
  let table := description_to_output monitors_data in
  let monitors := Workspace.monitors selected_workspace in
  for_each (set_iter (monitors_to_disable table monitors monitors_data))
           disable_monitor ;;
  for_each monitors (apply_monitor_config table).

Definition activate_workspace : M unit :=
  workspaces_data ← load_workspaces;
  match Store.workspaces workspaces_data with
  | None | Some [] => print "No workspaces found in workspaces.json."
  | Some workspaces =>
      let workspace_names := Workspace.name <$> workspaces in
      answer ← ask_list "Select a workspace to activate:" workspace_names;
      match answer with
      | None => mret ()
      | Some selected_workspace_name =>
          match List.find (λ ws, String.eqb (Workspace.name ws)
                                            selected_workspace_name)
                          workspaces with
          | None => print "Workspace not found."
          | Some selected_workspace =>
              monitors_data ← get_outputs;
              match monitors_data with
              | None => print "Failed to retrieve monitor information."
              | Some [] => print "No monitors found."
              | Some monitors_data => activate selected_workspace monitors_data
              end
          end
      end
  end.

(** *** Creating a workspace *)

Definition ROTATIONS : list string :=
  ["normal"; "90"; "180"; "270";
   "flipped"; "flipped-90"; "flipped-180"; "flipped-270"].

(** [x_str, y_str = position_input.split(","); x = int(x_str.strip());
    y = int(y_str.strip())]; [None] is [ValueError]. *)
Definition parse_position (position_input : string) : option (Z * Z) :=
  match Py.split_comma position_input with
  | [x_str; y_str] =>
      match Py.int (Py.strip x_str) with
      | Some x =>
          match Py.int (Py.strip y_str) with
          | Some y => Some (x, y)
          | None => None
          end
      | None => None
      end
  | _ => None
  end.

(** Body of the loop of [create_new_workspace] over the live outputs; the
    result is [workspace_monitors] after the iteration. *)
Definition configure_monitor (workspace_monitors : list MonitorProfile.t)
    (monitor : Output.t) : M (list MonitorProfile.t) :=
  let output_name := Output.name monitor in
  let description := describe monitor in
  state_answer ← ask_list
    ("Do you want to enable " +:+ description +:+ " (" +:+ output_name +:+ ")?")
    ["Enable"; "Disable"];
  let state_choice :=
    match state_answer with
    | None => "disable"
    | Some answer => Py.lower answer
    end in
  if String.eqb state_choice "disable" then mret workspace_monitors
  else
    rotation_answer ← ask_list
      ("Set rotation for " +:+ description +:+ " (" +:+ output_name +:+ "):")
      ROTATIONS;
    let rotation_choice := default "normal" rotation_answer in
    position_answer ← ask_text
      ("Enter position for " +:+ description +:+ " (" +:+ output_name
       +:+ ") in format x,y (e.g., 0,0):");
    xy ← match position_answer with
         | None =>
             print "Position not set. Using default (0,0)." ;; mret (0, 0)
         | Some answer =>
             if negb (Py.truthy (Py.strip answer)) then
               print "Position not set. Using default (0,0)." ;; mret (0, 0)
             else
               match parse_position (Py.strip answer) with
               | Some xy => mret xy
               | None =>
                   print "Invalid position format. Using default (0,0)." ;;
                   mret (0, 0)
               end
         end;
    mret (workspace_monitors ++
          [MonitorProfile.Make description (Some state_choice)
             (Some rotation_choice)
             (Some (Position.Make (Some xy.1) (Some xy.2)))])%list.

Definition create_new_workspace : M unit :=
  workspaces_data ← load_workspaces;
  workspace_name_answer ← ask_text "Enter the name for the new workspace:";
  match workspace_name_answer with
  | None => print "Workspace name cannot be empty."
  | Some answer =>
      if negb (Py.truthy (Py.strip answer)) then
        print "Workspace name cannot be empty."
      else
        let workspace_name := Py.strip answer in
        match Store.workspaces workspaces_data with
        | None => raise (KeyError "workspaces")
        | Some workspaces =>
            if existsb (λ ws, String.eqb (Workspace.name ws) workspace_name)
                       workspaces
            then print ("A workspace named '" +:+ workspace_name
                        +:+ "' already exists.")
            else
              print (nl +:+ "Configuring monitors for workspace '"
                     +:+ workspace_name +:+ "':" +:+ nl) ;;
              monitors_data ← get_outputs;
              match monitors_data with
              | None => print "Failed to retrieve monitor information."
              | Some [] => print "No monitors found."
              | Some monitors_data =>
                  workspace_monitors ←
                    for_fold monitors_data [] configure_monitor;
                  save_workspaces
                    (Store.Make
                       (Some (workspaces ++
                              [Workspace.Make workspace_name
                                              workspace_monitors]))) ;;
                  print ("Workspace '" +:+ workspace_name
                         +:+ "' created successfully.")
              end
        end
  end.

(** The loop of [create_current_as_workspace] over the live outputs (the
    spec's [captureCurrentAsProfile]). *)
Definition captureCurrentAsProfile (monitors_data : list Output.t)
  : list MonitorProfile.t :=
  foldl (λ (workspace_monitors : list MonitorProfile.t) monitor,
           let description := describe monitor in
           let state :=
             if Output.active monitor then "enable" else "disable" in
           let transform := default "normal" (Output.transform monitor) in
           let position :=
             default (Position.Make (Some 0) (Some 0)) (Output.rect monitor) in
           let x := default 0 (Position.x position) in
           let y := default 0 (Position.y position) in
           if negb (String.eqb state "disable") then
             (workspace_monitors ++
              [MonitorProfile.Make description (Some state) (Some transform)
                 (Some (Position.Make (Some x) (Some y)))])%list
           else workspace_monitors)
        [] monitors_data.

Definition create_current_as_workspace : M unit :=
  workspaces_data ← load_workspaces;
  workspace_name_answer ← ask_text
    "Enter the name for the new workspace based on current settings:";
  match workspace_name_answer with
  | None => print "Workspace name cannot be empty."
  | Some answer =>
      if negb (Py.truthy (Py.strip answer)) then
        print "Workspace name cannot be empty."
      else
        let workspace_name := Py.strip answer in
        match Store.workspaces workspaces_data with
        | None => raise (KeyError "workspaces")
        | Some workspaces =>
            if existsb (λ ws, String.eqb (Workspace.name ws) workspace_name)
                       workspaces
            then print ("A workspace named '" +:+ workspace_name
                        +:+ "' already exists.")
            else
              monitors_data ← get_outputs;
              match monitors_data with
              | None => print "Failed to retrieve monitor information."
              | Some [] => print "No monitors found."
              | Some monitors_data =>
                  let workspace_monitors :=
                    captureCurrentAsProfile monitors_data in
                  save_workspaces
                    (Store.Make
                       (Some (workspaces ++
                              [Workspace.Make workspace_name
                                              workspace_monitors]))) ;;
                  print ("Workspace '" +:+ workspace_name
                         +:+ "' created successfully from current settings.")
              end
        end
  end.

(** *** Deleting workspaces *)

(** One iteration of the deletion loop: keep the workspaces whose name
    differs from [ws_name]. *)
Definition remove_named (workspaces : list Workspace.t) (ws_name : string)
  : list Workspace.t :=
  List.filter (λ ws, negb (String.eqb (Workspace.name ws) ws_name)) workspaces.

Definition delete_workspace : M unit :=
  workspaces_data ← load_workspaces;
  match Store.workspaces workspaces_data with
  | None | Some [] => print "No workspaces found in workspaces.json."
  | Some workspaces =>
      let workspace_names := Workspace.name <$> workspaces in
      answer ← ask_checkbox "Select workspaces to delete:" workspace_names;
      match answer with
      | None | Some [] => print "No workspaces selected for deletion."
      | Some selected =>
          remaining ← for_fold selected workspaces
            (λ workspaces ws_name,
               print ("Workspace '" +:+ ws_name +:+ "' deleted.") ;;
               mret (remove_named workspaces ws_name));
          save_workspaces (Store.Make (Some remaining))
      end
  end.

(** *** Checking a typed position *)

(** What [validate_position_input] hands back to the prompt: [True], or
    the message to show. *)
Inductive validation :=
  | Valid
  | Invalid (message : string).

Definition validate_position_input (x : string) : validation :=
  if negb (Py.truthy (Py.strip x)) then Valid
  else
    match parse_position x with
    | Some _ => Valid
    | None =>
        Invalid
          "Please enter position in format x,y where x and y are integers."
    end.

(** *** Managing monitors by hand *)

(** [f"{description} ({output_name}) - {active}, rot: {transform}, pos:
    ({x}, {y})"], the line that stands for a monitor in the checkbox. *)
Definition monitor_info (monitor : Output.t) : string :=
  let output_name := Output.name monitor in
  let description := describe monitor in
  let active := Output.active monitor in
  let transform := default "normal" (Output.transform monitor) in
  let position :=
    default (Position.Make (Some 0) (Some 0)) (Output.rect monitor) in
  let x := default 0 (Position.x position) in
  let y := default 0 (Position.y position) in
  description +:+ " (" +:+ output_name +:+ ") - " +:+ Py.str_bool active
  +:+ ", rot: " +:+ transform
  +:+ ", pos: (" +:+ Py.str x +:+ ", " +:+ Py.str y +:+ ")".

(** The two things the first loop of [manage_monitors] builds: the list
    [choices], in order, and the dict [monitor_map], in which a later
    monitor with the same line replaces an earlier one. *)
Definition monitor_choices (monitors_data : list Output.t) : list string :=
  foldl (λ (choices : list string) monitor,
           choices ++ [monitor_info monitor])
        [] monitors_data.

Definition monitor_map (monitors_data : list Output.t)
  : gmap string Output.t :=
  foldl (λ table monitor, <[monitor_info monitor := monitor]> table)
        ∅ monitors_data.

(** Body of the loop of [manage_monitors] over the selected lines.  The
    three [continue]/fall-through paths of the source are the three places
    where nothing is applied. *)
Definition manage_monitor (monitor_map : gmap string Output.t)
    (monitor_info : string) : M unit :=
  match monitor_map !! monitor_info with
  | None => raise (KeyError monitor_info)
  | Some monitor =>
      let output_name := Output.name monitor in
      state_answer ← ask_list
        ("Do you want to enable or disable " +:+ monitor_info +:+ "?")
        ["No Change"; "Enable"; "Disable"];
      match state_answer with
      | None => mret ()
      | Some state_choice =>
          rotation_answer ← ask_list
            ("Set rotation for " +:+ monitor_info +:+ ":")
            ("No Change" :: ROTATIONS);
          match rotation_answer with
          | None => mret ()
          | Some rotation_choice =>
              position_answer ← ask_text
                ("Enter position for " +:+ monitor_info
                 +:+ " in format x,y (e.g., 0,0) or leave empty for no change:");
              xy ← match position_answer with
                   | Some answer =>
                       let position_input := Py.strip answer in
                       if Py.truthy position_input then
                         match parse_position position_input with
                         | Some xy => mret (Some xy)
                         | None =>
                             print "Invalid position format. Skipping position change." ;;
                             mret None
                         end
                       else mret None
                   | None => mret None
                   end;
              (if String.eqb state_choice "Enable"
               then enable_monitor output_name
               else if String.eqb state_choice "Disable"
               then disable_monitor output_name
               else mret ()) ;;
              (if negb (String.eqb rotation_choice "No Change")
               then set_rotation output_name rotation_choice
               else mret ()) ;;
              match xy with
              | Some (x, y) => set_position output_name x y
              | None => mret ()
              end
          end
      end
  end.

Definition manage_monitors : M unit :=
  monitors_data ← get_outputs;
  match monitors_data with
  | None => print "Failed to retrieve monitor information."
  | Some [] => print "No monitors found."
  | Some monitors_data =>
      answer ← ask_checkbox "Select monitors to manage:"
                            (monitor_choices monitors_data);
      match answer with
      | None | Some [] => print "No monitors selected."
      | Some selected =>
          for_each selected (manage_monitor (monitor_map monitors_data))
      end
  end.

(** *** Menus

    Both menus are [while True] loops.  [fuel] bounds how many times a loop
    may go round; [Still_running] is a run that reached the bound with its
    loop still going. *)
Inductive ending :=
  | Left_menu       (* [break]: the function returns *)
  | SystemExit      (* [sys.exit()], which nothing in the program catches *)
  | Still_running.

Fixpoint manage_workspaces_menu (fuel : nat) : M ending :=
  match fuel with
  | O => mret Still_running
  | S fuel =>
      answer ← ask_list "Workspace Management Options:"
        ["Activate a Workspace"; "Create a New Workspace";
         "Create Current Settings as Workspace"; "Delete a Workspace";
         "Back to Main Menu"];
      match answer with
      | None => manage_workspaces_menu fuel
      | Some mode =>
          if String.eqb mode "Activate a Workspace" then
            activate_workspace ;; manage_workspaces_menu fuel
          else if String.eqb mode "Create a New Workspace" then
            create_new_workspace ;; manage_workspaces_menu fuel
          else if String.eqb mode "Create Current Settings as Workspace" then
            create_current_as_workspace ;; manage_workspaces_menu fuel
          else if String.eqb mode "Delete a Workspace" then
            delete_workspace ;; manage_workspaces_menu fuel
          else if String.eqb mode "Back to Main Menu" then mret Left_menu
          else manage_workspaces_menu fuel
      end
  end.

Fixpoint menu (fuel : nat) : M ending :=
  match fuel with
  | O => mret Still_running
  | S fuel =>
      answer ← ask_list "What do you want to do?"
        ["Manage Monitors"; "Manage Workspaces"; "Exit"];
      match answer with
      | None => menu fuel
      | Some mode =>
          if String.eqb mode "Manage Monitors" then
            manage_monitors ;; menu fuel
          else if String.eqb mode "Manage Workspaces" then
            back ← manage_workspaces_menu fuel;
            match back with
            | Left_menu => menu fuel
            | other => mret other
            end
          else if String.eqb mode "Exit" then mret SystemExit
          else menu fuel
      end
  end.

End Program.

(** ** A concrete environment

    JSON text for the two documents the program exchanges, in the layout
    of [json.dump(..., indent=4)], and an [Env] built from it.  The theorems
    below hold for every [Env]; this one instantiates them. *)
Module Json.

#[warnings="-register-all"]
Inductive value :=
  | Null
  | Bool (b : bool)
  | Int (n : Z)
  | Str (s : string)
  | Arr (items : list value)
  | Obj (members : list (string * value)).

Definition dquote : ascii := ascii_of_N 34.
Definition backslash : ascii := ascii_of_N 92.

(** *** Printing *)

Definition hex_digit (n : N) : ascii :=
  if (n <? 10)%N then ascii_of_N (48 + n) else ascii_of_N (87 + n).

Definition escape_char (c : ascii) : string :=
  let n := N_of_ascii c in
  if Ascii.eqb c dquote then String backslash (String dquote EmptyString)
  else if Ascii.eqb c backslash
  then String backslash (String backslash EmptyString)
  else if (n =? 10)%N then String backslash "n"
  else if (n =? 13)%N then String backslash "r"
  else if (n =? 9)%N then String backslash "t"
  else if ((n <? 32) || (126 <? n))%N then
    String backslash
      ("u00" +:+ String (hex_digit (n / 16))
                        (String (hex_digit (n mod 16)) EmptyString))
  else String c EmptyString.

Fixpoint escape (s : string) : string :=
  match s with
  | EmptyString => EmptyString
  | String c s' => escape_char c +:+ escape s'
  end.

Definition quote (s : string) : string :=
  String dquote (escape s +:+ String dquote EmptyString).

Fixpoint spaces (n : nat) : string :=
  match n with O => EmptyString | S n' => String " " (spaces n') end.

Definition join_lines (level : nat) (items : list string) : string :=
  foldr (λ item rest,
           nl +:+ spaces level +:+ item
           +:+ (if String.eqb rest EmptyString then rest else "," +:+ rest))
        EmptyString items.

Fixpoint dumps_at (level : nat) (v : value) : string :=
  match v with
  | Null => "null"
  | Bool true => "true"
  | Bool false => "false"
  | Int n => pretty n
  | Str s => quote s
  | Arr [] => "[]"
  | Arr items =>
      "[" +:+ join_lines (level + 4) (map (dumps_at (level + 4)) items)
      +:+ nl +:+ spaces level +:+ "]"
  | Obj [] => "{}"
  | Obj members =>
      "{" +:+ join_lines (level + 4)
                (map (λ kv, quote kv.1 +:+ ": " +:+ dumps_at (level + 4) kv.2)
                     members)
      +:+ nl +:+ spaces level +:+ "}"
  end.

Definition dumps (v : value) : string := dumps_at 0 v.

(** *** Parsing *)

Definition is_ws (c : ascii) : bool :=
  let n := N_of_ascii c in
  ((n =? 32) || (n =? 9) || (n =? 10) || (n =? 13))%N.

Fixpoint skip_ws (s : string) : string :=
  match s with
  | EmptyString => EmptyString
  | String c s' => if is_ws c then skip_ws s' else s
  end.

Definition hex_value (c : ascii) : option N :=
  let n := N_of_ascii c in
  if ((48 <=? n) && (n <=? 57))%N then Some (n - 48)%N
  else if ((97 <=? n) && (n <=? 102))%N then Some (n - 87)%N
  else if ((65 <=? n) && (n <=? 70))%N then Some (n - 55)%N
  else None.

Definition cons_char (c : ascii) (r : option (string * string))
  : option (string * string) :=
  match r with
  | Some (s, rest) => Some (String c s, rest)
  | None => None
  end.

(** The characters of a string literal after its opening quote. *)
Fixpoint parse_chars (s : string) : option (string * string) :=
  match s with
  | EmptyString => None
  | String c s' =>
      if Ascii.eqb c dquote then Some (EmptyString, s')
      else if Ascii.eqb c backslash then
        match s' with
        | String "u" (String "0" (String "0" (String h (String l rest)))) =>
            match hex_value h, hex_value l with
            | Some h, Some l =>
                cons_char (ascii_of_N (16 * h + l)) (parse_chars rest)
            | _, _ => None
            end
        | String e rest =>
            if Ascii.eqb e "n" then cons_char (ascii_of_N 10) (parse_chars rest)
            else if Ascii.eqb e "r"
            then cons_char (ascii_of_N 13) (parse_chars rest)
            else if Ascii.eqb e "t"
            then cons_char (ascii_of_N 9) (parse_chars rest)
            else if Ascii.eqb e dquote || Ascii.eqb e backslash
                    || Ascii.eqb e "/"
            then cons_char e (parse_chars rest)
            else None
        | EmptyString => None
        end
      else if (N_of_ascii c <? 32)%N then None
      else cons_char c (parse_chars s')
  end.

Fixpoint parse_digits (acc : Z) (s : string) : Z * string :=
  match s with
  | EmptyString => (acc, s)
  | String c s' =>
      match Py.digit c with
      | Some d => parse_digits (10 * acc + d) s'
      | None => (acc, s)
      end
  end.

(** An integer literal whose first digit is [c]. *)
Definition parse_number (negative : bool) (s : string)
  : option (value * string) :=
  match s with
  | String c _ =>
      match Py.digit c with
      | Some _ =>
          let (n, rest) := parse_digits 0 s in
          Some (Int (if negative then - n else n), rest)
      | None => None
      end
  | EmptyString => None
  end.

Definition strip_prefix (p s : string) : option string :=
  if String.prefix p s
  then Some (String.substring (String.length p)
                              (String.length s - String.length p) s)
  else None.

Fixpoint parse_value (fuel : nat) (s : string) : option (value * string) :=
  match fuel with
  | O => None
  | S fuel =>
      match skip_ws s with
      | EmptyString => None
      | String c rest as s =>
          if Ascii.eqb c "[" then
            match skip_ws rest with
            | String "]" rest' => Some (Arr [], rest')
            | _ =>
                match parse_items fuel rest with
                | Some (items, rest') => Some (Arr items, rest')
                | None => None
                end
            end
          else if Ascii.eqb c "{" then
            match skip_ws rest with
            | String "}" rest' => Some (Obj [], rest')
            | _ =>
                match parse_members fuel rest with
                | Some (members, rest') => Some (Obj members, rest')
                | None => None
                end
            end
          else if Ascii.eqb c dquote then
            match parse_chars rest with
            | Some (text, rest') => Some (Str text, rest')
            | None => None
            end
          else if Ascii.eqb c "-" then parse_number true rest
          else
            match strip_prefix "null" s, strip_prefix "true" s,
                  strip_prefix "false" s with
            | Some rest', _, _ => Some (Null, rest')
            | _, Some rest', _ => Some (Bool true, rest')
            | _, _, Some rest' => Some (Bool false, rest')
            | _, _, _ => parse_number false s
            end
      end
  end
with parse_items (fuel : nat) (s : string) : option (list value * string) :=
  match fuel with
  | O => None
  | S fuel =>
      match parse_value fuel s with
      | Some (v, rest) =>
          match skip_ws rest with
          | String c rest' =>
              if Ascii.eqb c "," then
                match parse_items fuel rest' with
                | Some (vs, rest'') => Some (v :: vs, rest'')
                | None => None
                end
              else if Ascii.eqb c "]" then Some ([v], rest')
              else None
          | EmptyString => None
          end
      | None => None
      end
  end
with parse_members (fuel : nat) (s : string)
  : option (list (string * value) * string) :=
  match fuel with
  | O => None
  | S fuel =>
      match skip_ws s with
      | String q rest =>
          if Ascii.eqb q dquote then
            match parse_chars rest with
            | Some (key, rest) =>
                match skip_ws rest with
                | String ":" rest =>
                    match parse_value fuel rest with
                    | Some (v, rest) =>
                        match skip_ws rest with
                        | String c rest' =>
                            if Ascii.eqb c "," then
                              match parse_members fuel rest' with
                              | Some (kvs, rest'') =>
                                  Some ((key, v) :: kvs, rest'')
                              | None => None
                              end
                            else if Ascii.eqb c "}"
                            then Some ([(key, v)], rest')
                            else None
                        | EmptyString => None
                        end
                    | None => None
                    end
                | _ => None
                end
            | None => None
            end
          else None
      | EmptyString => None
      end
  end.

(** [json.loads]: one value, then only white space. *)
Definition loads (s : string) : option value :=
  match parse_value (2 * String.length s + 2) s with
  | Some (v, rest) =>
      match skip_ws rest with
      | EmptyString => Some v
      | _ => None
      end
  | None => None
  end.

(** [d.get(key)] on a parsed object: the last member with that key. *)
Definition get (key : string) (members : list (string * value))
  : option value :=
  foldl (λ found kv, if String.eqb kv.1 key then Some kv.2 else found)
        None members.

End Json.

(** The two documents as JSON values.  A document that parses but does not
    have the shape of the data model is outside this embedding; [decode_*]
    answers [None] for it. *)
Module Codec.
Import Json.

Definition member {A} (key : string) (encode : A → value) (field : option A)
  : list (string * value) :=
  match field with
  | Some a => [(key, encode a)]
  | None => []
  end.

Definition encode_position (p : Position.t) : value :=
  Obj (member "x" Int (Position.x p) ++ member "y" Int (Position.y p)).

Definition encode_profile (m : MonitorProfile.t) : value :=
  Obj ([("description", Str (MonitorProfile.description m))]
       ++ member "state" Str (MonitorProfile.state m)
       ++ member "transform" Str (MonitorProfile.transform m)
       ++ member "position" encode_position (MonitorProfile.position m)).

Definition encode_workspace (ws : Workspace.t) : value :=
  Obj [("name", Str (Workspace.name ws));
       ("monitors", Arr (map encode_profile (Workspace.monitors ws)))].

Definition encode_store (d : Store.t) : value :=
  Obj (member "workspaces" (λ l, Arr (map encode_workspace l))
              (Store.workspaces d)).

Definition as_str (v : value) : option string :=
  match v with Str s => Some s | _ => None end.
Definition as_int (v : value) : option Z :=
  match v with Int n => Some n | _ => None end.
Definition as_bool (v : value) : option bool :=
  match v with Bool b => Some b | _ => None end.
Definition as_obj (v : value) : option (list (string * value)) :=
  match v with Obj members => Some members | _ => None end.
Definition as_arr (v : value) : option (list value) :=
  match v with Arr items => Some items | _ => None end.

(** A key that must be present. *)
Definition required {A} (key : string) (decode : value → option A)
    (members : list (string * value)) : option A :=
  get key members ≫= decode.

(** A key that may be absent. *)
Definition optional {A} (key : string) (decode : value → option A)
    (members : list (string * value)) : option (option A) :=
  match get key members with
  | None => Some None
  | Some v => Some <$> decode v
  end.

Definition decode_position (v : value) : option Position.t :=
  members ← as_obj v;
  x ← optional "x" as_int members;
  y ← optional "y" as_int members;
  Some (Position.Make x y).

Definition decode_profile (v : value) : option MonitorProfile.t :=
  members ← as_obj v;
  description ← required "description" as_str members;
  state ← optional "state" as_str members;
  transform ← optional "transform" as_str members;
  position ← optional "position" decode_position members;
  Some (MonitorProfile.Make description state transform position).

Definition decode_workspace (v : value) : option Workspace.t :=
  members ← as_obj v;
  name ← required "name" as_str members;
  monitors ← required "monitors" as_arr members;
  monitors ← mapM decode_profile monitors;
  Some (Workspace.Make name monitors).

Definition decode_store (v : value) : option Store.t :=
  members ← as_obj v;
  workspaces ← optional "workspaces"
    (λ v, as_arr v ≫= mapM decode_workspace) members;
  Some (Store.Make workspaces).

Definition decode_output (v : value) : option Output.t :=
  members ← as_obj v;
  name ← required "name" as_str members;
  make ← optional "make" as_str members;
  model ← optional "model" as_str members;
  serial ← optional "serial" as_str members;
  active ← required "active" as_bool members;
  transform ← optional "transform" as_str members;
  rect ← optional "rect" decode_position members;
  Some (Output.Make name make model serial active transform rect).

Definition json_dump (d : Store.t) : string := dumps (encode_store d).
Definition json_load (text : string) : option Store.t :=
  loads text ≫= decode_store.
Definition json_loads_outputs (text : string) : option (list Output.t) :=
  items ← loads text ≫= as_arr;
  mapM decode_output items.

End Codec.

(** An environment in which every [swaymsg] run exits with [returncode]
    and prints [outputs_text], and the user gives the same answer to every
    prompt of a kind. *)
Definition scripted (returncode : Z) (outputs_text : string)
    (text_answer list_answer : option string)
    (checkbox_answer : option (list string)) : Env :=
  {| swaymsg_returncode := λ _ _, returncode;
     swaymsg_stdout := λ _, outputs_text;
     json_loads_outputs := Codec.json_loads_outputs;
     json_load := Codec.json_load;
     json_dump := Codec.json_dump;
     prompt_text := λ _ _, text_answer;
     prompt_list := λ _ _ _, list_answer;
     prompt_checkbox := λ _ _ _, checkbox_answer;
     set_iter := elements;
     set_iter_perm := λ s, reflexivity (elements s) |}.

(** Nothing on disk, nothing printed, nothing run, nothing asked. *)
Definition fresh : world := World ∅ [] [] [] [].

(** The same, with the workspaces file holding [text]. *)
Definition with_file (text : string) : world :=
  World {[WORKSPACES_FILE := text]} [] [] [] [].

(** ** Actions and traces

    The spec speaks of the sequence of actions an activation emits; the
    program prints a line and runs [swaymsg] for each.  [event]s are what a
    run leaves in the world, [action]s are the spec's reading of the
    commands. *)
Inductive action :=
  | Enable (output : string)
  | Disable (output : string)
  | SetTransform (output transform : string)
  | SetPosition (output : string) (x y : Z).

(** The [swaymsg] command line of an action. *)
Definition argv_of (a : action) : list string :=
  match a with
  | Enable output => ["swaymsg"; "output"; output; "enable"]
  | Disable output => ["swaymsg"; "output"; output; "disable"]
  | SetTransform output transform =>
      ["swaymsg"; "output"; output; "transform"; transform]
  | SetPosition output x y =>
      ["swaymsg"; "output"; output; "position"; Py.str x; Py.str y]
  end.

(** The line printed before an action's command. *)
Definition line_of (a : action) : string :=
  match a with
  | Enable output => "Enabling monitor: " +:+ output
  | Disable output => "Disabling monitor: " +:+ output
  | SetTransform output transform =>
      "Setting rotation of " +:+ output +:+ " to " +:+ transform
  | SetPosition output x y =>
      "Setting position of " +:+ output +:+ " to ("
      +:+ Py.str x +:+ ", " +:+ Py.str y +:+ ")"
  end.

Definition target (a : action) : string :=
  match a with
  | Enable output | Disable output
  | SetTransform output _ | SetPosition output _ _ => output
  end.

Inductive event :=
  | Say (line : string)
  | Run (argv : list string).

Definition perform `{Env} (e : event) : M unit :=
  match e with
  | Say line => print line
  | Run argv => subprocess_run_check argv
  end.

Definition says (es : list event) : list string :=
  omap (λ e, match e with Say line => Some line | Run _ => None end) es.

Definition runs (es : list event) : list (list string) :=
  omap (λ e, match e with Run argv => Some argv | Say _ => None end) es.

(** The line both creation paths print next, once the store has been
    loaded and the user has answered [answer] to the name prompt. *)
Definition name_report (answer : string) : string :=
  if Py.truthy (Py.strip answer)
  then "A workspace named '" +:+ Py.strip answer +:+ "' already exists."
  else "Workspace name cannot be empty.".

(** The world after [lines] have been printed. *)
Definition said (lines : list string) (w : world) : world :=
  World (files w) (writes w) (stdout w ++ lines) (issued w) (asked w).

(** The world after the events [es] have all happened. *)
Definition after (es : list event) (w : world) : world :=
  World (files w) (writes w) (stdout w ++ says es) (issued w ++ runs es)
        (asked w).

Definition action_events (a : action) : list event :=
  [Say (line_of a); Run (argv_of a)].

(** What one monitor configuration asks of the compositor, given the
    lookup table: nothing when its description does not resolve. *)
Definition state_actions (state : option string) (output_name : string)
  : list action :=
  let state := default "enable" state in
  if String.eqb state "enable" then [Enable output_name]
  else if String.eqb state "disable" then [Disable output_name]
  else [].

Definition transform_actions (transform : option string)
    (output_name : string) : list action :=
  match transform with
  | Some rotation =>
      if Py.truthy rotation then [SetTransform output_name rotation] else []
  | None => []
  end.

Definition position_action (position : option Position.t)
    (output_name : string) : action :=
  let position := default (Position.Make (Some 0) (Some 0)) position in
  SetPosition output_name (default 0 (Position.x position))
              (default 0 (Position.y position)).

Definition profile_actions (table : gmap string string)
    (monitor_config : MonitorProfile.t) : list action :=
  match resolve table (MonitorProfile.description monitor_config) with
  | None => []
  | Some output_name =>
      state_actions (MonitorProfile.state monitor_config) output_name
      ++ transform_actions (MonitorProfile.transform monitor_config)
                           output_name
      ++ [position_action (MonitorProfile.position monitor_config)
                          output_name]
  end.

Definition not_found (monitor_config : MonitorProfile.t) : string :=
  "Monitor with description '"
  +:+ MonitorProfile.description monitor_config +:+ "' not found.".

Definition profile_events (table : gmap string string)
    (monitor_config : MonitorProfile.t) : list event :=
  match resolve table (MonitorProfile.description monitor_config) with
  | None => [Say (not_found monitor_config)]
  | Some _ => flat_map action_events (profile_actions table monitor_config)
  end.

(** The output names the workspace's configurations resolve to. *)
Definition resolved_names (table : gmap string string)
    (monitors : list MonitorProfile.t) : list string :=
  omap (λ mc, resolve table (MonitorProfile.description mc)) monitors.

(** The whole activation as a trace, for a given order of the first pass. *)
Definition activation_actions (disabled : list string)
    (table : gmap string string) (monitors : list MonitorProfile.t)
  : list action :=
  (Disable <$> disabled) ++ flat_map (profile_actions table) monitors.

Definition activation_events (disabled : list string)
    (table : gmap string string) (monitors : list MonitorProfile.t)
  : list event :=
  flat_map action_events (Disable <$> disabled)
  ++ flat_map (profile_events table) monitors.

(** ** The claims' vocabulary *)

(** [setEnabled(outputName, enabled)]: the spec's name for the pair
    [enable_monitor] / [disable_monitor]. *)
Definition setEnabled `{Env} (output_name : string) (enabled : bool)
  : M unit :=
  if enabled then enable_monitor output_name
  else disable_monitor output_name.

(** A command that never surfaces a failure: it returns in every world. *)
Definition fire_and_forget (m : M unit) : Prop :=
  ∀ w, ∃ w', m w = (Returned (), w').



(** The profile the spec says a capture records for an active output: its
    derived description, state enable, its transform and its position. *)
Definition captured_profile (monitor : Output.t) : MonitorProfile.t :=
  let rect :=
    default (Position.Make (Some 0) (Some 0)) (Output.rect monitor) in
  MonitorProfile.Make
    (describe monitor) (Some "enable")
    (Some (default "normal" (Output.transform monitor)))
    (Some (Position.Make (Some (default 0 (Position.x rect)))
                         (Some (default 0 (Position.y rect))))).

(** The names of the live outputs that are on. *)
Definition active_names (L : list Output.t) : gset string :=
  list_to_set (Output.name <$> filter (λ o, Is_true (Output.active o)) L).

(** Modelled from the spec: the compositor is not part of the repository.
    It turns an output on at [output <name> enable], off at
    [output <name> disable], and a later command overrides an earlier one;
    the other commands leave the set of enabled outputs alone. *)
Definition sway_apply (enabled : gset string) (argv : list string)
  : gset string :=
  match argv with
  | [program; command; output; verb] =>
      if String.eqb program "swaymsg" && String.eqb command "output" then
        if String.eqb verb "enable" then {[output]} ∪ enabled
        else if String.eqb verb "disable" then enabled ∖ {[output]}
        else enabled
      else enabled
  | _ => enabled
  end.

Definition enabled_after (commands : list (list string))
    (enabled : gset string) : gset string :=
  foldl sway_apply enabled commands.

(** ** Footprints and outcomes

    What a computation may do to the world between the state it starts in
    and the state it leaves: the commands it may run and the files it may
    write.  The logs only grow. *)
Definition within (may_run : list string → Prop) (may_write : string → Prop)
    (w w' : world) : Prop :=
  (∃ new, issued w' = issued w ++ new ∧ Forall may_run new)
  ∧ (∃ new, writes w' = writes w ++ new
            ∧ Forall (λ entry, may_write entry.1) new)
  ∧ (∀ path, ¬ may_write path → files w' !! path = files w !! path)
  ∧ (∃ new, stdout w' = stdout w ++ new)
  ∧ (∃ new, asked w' = asked w ++ new).

(** Every run of [m] relates its two worlds by [R], however it ends. *)
Definition extends {A} (R : relation world) (m : M A) : Prop :=
  ∀ w, R w (m w).2.

(** Every exception a run of [m] ends with satisfies [P]. *)
Definition raises_only {A} (P : exn → Prop) (m : M A) : Prop :=
  ∀ w, match (m w).1 with
       | Raised e => P e
       | Returned _ => True
       end.

Definition is_swaymsg (argv : list string) : Prop :=
  head argv = Some "swaymsg".

(** The one command that only reads the compositor's state. *)
Definition get_outputs_argv : list string := ["swaymsg"; "-t"; "get_outputs"].

(** The world after the prompts [messages] have been shown. *)
Definition prompted (messages : list string) (w : world) : world :=
  World (files w) (writes w) (stdout w) (issued w) (asked w ++ messages).

(** What [manage_monitors] asks of the compositor for one selected monitor,
    given the three answers: the typed position counts when, stripped, it
    parses. *)
Definition typed_position (position_answer : option string)
  : option (Z * Z) :=
  match position_answer with
  | Some answer => parse_position (Py.strip answer)
  | None => None
  end.

Definition chosen_actions (output_name state_choice rotation_choice : string)
    (position_answer : option string) : list action :=
  (if String.eqb state_choice "Enable" then [Enable output_name]
   else if String.eqb state_choice "Disable" then [Disable output_name]
   else [])
  ++ (if String.eqb rotation_choice "No Change" then []
      else [SetTransform output_name rotation_choice])
  ++ match typed_position position_answer with
     | Some (x, y) => [SetPosition output_name x y]
     | None => []
     end.

(** The three prompts [manage_monitors] shows for one selected monitor. *)
Definition state_prompt (monitor_info : string) : string :=
  "Do you want to enable or disable " +:+ monitor_info +:+ "?".
Definition rotation_prompt (monitor_info : string) : string :=
  "Set rotation for " +:+ monitor_info +:+ ":".
Definition position_prompt (monitor_info : string) : string :=
  "Enter position for " +:+ monitor_info
  +:+ " in format x,y (e.g., 0,0) or leave empty for no change:".

(** The two menus' prompts. *)
Definition MAIN_MENU : list string :=
  ["Manage Monitors"; "Manage Workspaces"; "Exit"].
Definition WORKSPACE_MENU : list string :=
  ["Activate a Workspace"; "Create a New Workspace";
   "Create Current Settings as Workspace"; "Delete a Workspace";
   "Back to Main Menu"].

(** A profile as [create_new_workspace] records it: a state other than
    "disable", a rotation, and both coordinates. *)
Definition configured (m : MonitorProfile.t) : Prop :=
  MonitorProfile.state m ≠ Some "disable"
  ∧ is_Some (MonitorProfile.state m)
  ∧ is_Some (MonitorProfile.transform m)
  ∧ ∃ x y, MonitorProfile.position m
           = Some (Position.Make (Some x) (Some y)).

(** ** Concrete inputs *)
Module Example.

(** Every command succeeds; nobody answers. *)
Definition quiet : Env := scripted 0 EmptyString None None None.

(** Every command exits with status 1. *)
Definition failing : Env := scripted 1 EmptyString None None None.

Definition origin : Position.t := Position.Make (Some 0) (Some 0).

(** The spec's example: HDMI-1 is a Dell U2, DP-1 an LG 5K that is off. *)
Definition hdmi : Output.t :=
  Output.Make "HDMI-1" (Some "Dell") (Some "U2") (Some EmptyString) true
              (Some "normal") (Some origin).

Definition dp (transform : option string) (rect : option Position.t)
  : Output.t :=
  Output.Make "DP-1" (Some "LG") (Some "5K") (Some EmptyString) false
              transform rect.

Definition work : Workspace.t :=
  Workspace.Make "work"
    [MonitorProfile.Make "Dell U2" (Some "enable") (Some "90") (Some origin)].

(** A workspace saved for a monitor that is not connected. *)
Definition away : Workspace.t :=
  Workspace.Make "away"
    [MonitorProfile.Make "Acme X1" (Some "enable") (Some "90") (Some origin)].


(** Two monitors of the same make and model that report no serial. *)
Definition twins : list Output.t :=
  [Output.Make "DP-1" (Some "Dell") (Some "U2") None true (Some "normal")
               (Some origin);
   Output.Make "DP-2" (Some "Dell") (Some "U2") None true (Some "normal")
               (Some (Position.Make (Some 1920) (Some 0)))].

(** A store in which two workspaces share a name. *)
Definition store : Store.t :=
  Store.Make (Some [work; away; Workspace.Make "work" []]).

End Example.

(** A user who answers the prompts of a run one after the other, and a
    compositor that reports [outputs]. *)
Module Scenario.

Inductive reply :=
  | Typed (text : string)
  | Picked (choice : string)
  | Ticked (choices : list string)
  | Cancelled.

Definition encode_output (o : Output.t) : Json.value :=
  Json.Obj ([("name", Json.Str (Output.name o))]
            ++ Codec.member "make" Json.Str (Output.make o)
            ++ Codec.member "model" Json.Str (Output.model o)
            ++ Codec.member "serial" Json.Str (Output.serial o)
            ++ [("active", Json.Bool (Output.active o))]
            ++ Codec.member "transform" Json.Str (Output.transform o)
            ++ Codec.member "rect" Codec.encode_position (Output.rect o)).

(** The text of [swaymsg -t get_outputs] for the outputs [L]. *)
Definition outputs_text (L : list Output.t) : string :=
  Json.dumps (Json.Arr (map encode_output L)).

(** The [n]-th prompt of the run gets the [n]-th reply; a reply of the
    wrong kind, or none left, is a cancelled prompt. *)
Definition session (returncode : Z) (outputs : list Output.t)
    (replies : list reply) : Env :=
  {| swaymsg_returncode := λ _ _, returncode;
     swaymsg_stdout := λ _, outputs_text outputs;
     json_loads_outputs := Codec.json_loads_outputs;
     json_load := Codec.json_load;
     json_dump := Codec.json_dump;
     prompt_text := λ history _,
       match replies !! List.length history with
       | Some (Typed text) => Some text
       | _ => None
       end;
     prompt_list := λ history _ _,
       match replies !! List.length history with
       | Some (Picked choice) => Some choice
       | _ => None
       end;
     prompt_checkbox := λ history _ _,
       match replies !! List.length history with
       | Some (Ticked choices) => Some choices
       | _ => None
       end;
     set_iter := elements;
     set_iter_perm := λ s, reflexivity (elements s) |}.

End Scenario.

(** * Proofs *)

(** ** Running a trace *)
Section Traces.
Context `{Env}.

Lemma bind_returned {A B} (m : M A) (k : A → M B) (w w' : world) (a : A) :
  m w = (Returned a, w') → (m ≫= k) w = k a w'.
Proof. intros Hm. unfold mbind, M_bind. by rewrite Hm. Qed.

Lemma bind_raised {A B} (m : M A) (k : A → M B) (w w' : world) (e : exn) :
  m w = (Raised e, w') → (m ≫= k) w = (Raised e, w').
Proof. intros Hm. unfold mbind, M_bind. by rewrite Hm. Qed.

Lemma for_each_app {A} (l1 l2 : list A) (body : A → M unit) (w : world) :
  for_each (l1 ++ l2) body w = (for_each l1 body ;; for_each l2 body) w.
Proof.
  revert w. induction l1 as [|a l1 IH]; intros w; [done|].
  simpl. unfold mbind, M_bind.
  destruct (body a w) as [[[]|e] w1]; [|done].
  rewrite IH. done.
Qed.

Lemma for_each_flat_map {A} (events : A → list event) (body : A → M unit)
    (l : list A) (w : world) :
  (∀ a w, body a w = for_each (events a) perform w) →
  for_each l body w = for_each (flat_map events l) perform w.
Proof.
  intros Hbody. revert w. induction l as [|a l IH]; intros w; [done|].
  simpl. rewrite for_each_app. unfold mbind, M_bind.
  rewrite Hbody. destruct (for_each (events a) perform w) as [[[]|e] w1];
    [apply IH|done].
Qed.

Lemma after_nil (w : world) : after [] w = w.
Proof. destruct w. unfold after. simpl. by rewrite !app_nil_r. Qed.

Lemma after_cons_say (line : string) (es : list event) (w : world) :
  after (Say line :: es) w
  = after es (World (files w) (writes w) (stdout w ++ [line]) (issued w)
                    (asked w)).
Proof. unfold after. simpl. by rewrite <- app_assoc. Qed.

Lemma after_cons_run (argv : list string) (es : list event) (w : world) :
  after (Run argv :: es) w = after es (log_run argv w).
Proof. unfold after, log_run. simpl. by rewrite <- app_assoc. Qed.

(** When every command succeeds, a trace runs to its end. *)
Lemma run_trace (es : list event) (w : world) :
  (∀ history argv, swaymsg_returncode history argv = 0) →
  for_each es perform w = (Returned (), after es w).
Proof.
  intros Hok. revert w. induction es as [|[line|argv] es IH]; intros w.
  - by rewrite after_nil.
  - simpl. unfold mbind, M_bind. simpl. rewrite IH. by rewrite after_cons_say.
  - simpl. unfold mbind, M_bind, subprocess_run_check. rewrite Hok.
    simpl. rewrite IH. by rewrite after_cons_run.
Qed.

(** Whatever the commands answer, a trace touches no file and runs a
    prefix of its commands. *)
Lemma run_trace_prefix (es : list event) (w : world) :
  ∃ new, issued (for_each es perform w).2 = issued w ++ new
         ∧ new `prefix_of` runs es
         ∧ files (for_each es perform w).2 = files w
         ∧ writes (for_each es perform w).2 = writes w.
Proof.
  revert w. induction es as [|[line|argv] es IH]; intros w.
  - exists []. simpl. by rewrite app_nil_r.
  - simpl. unfold mbind, M_bind. simpl.
    destruct (IH (World (files w) (writes w) (stdout w ++ [line]) (issued w)
                        (asked w))) as (new & ? & ? & ? & ?).
    exists new. done.
  - simpl. unfold mbind, M_bind, subprocess_run_check.
    case_decide.
    + destruct (IH (log_run argv w)) as (new & Hi & Hp & Hf & Hw).
      exists (argv :: new). rewrite Hi, Hf, Hw. simpl.
      split_and!; [by rewrite <- app_assoc|by apply prefix_cons|done|done].
    + exists [argv]. simpl. split_and!; try done.
      apply prefix_cons, prefix_nil.
Qed.

End Traces.

(** ** Activation as a trace *)
Section Activation.
Context `{Env}.

Lemma action_trace (m : M unit) (a : action) (w : world) :
  m = (print (line_of a) ;; subprocess_run_check (argv_of a)) →
  m w = for_each (action_events a) perform w.
Proof.
  intros ->. simpl. unfold mbind, M_bind. simpl.
  unfold subprocess_run_check. by case_decide.
Qed.

Lemma disable_monitor_trace (output : string) (w : world) :
  disable_monitor output w = for_each (action_events (Disable output)) perform w.
Proof. by apply action_trace. Qed.

Lemma actions_trace_app (a : action) (rest : list action) (m : M unit)
    (k : M unit) (w : world) :
  m = (print (line_of a) ;; subprocess_run_check (argv_of a)) →
  (∀ w, k w = for_each (flat_map action_events rest) perform w) →
  (m ;; k) w = for_each (flat_map action_events (a :: rest)) perform w.
Proof.
  intros -> Hk. simpl. unfold mbind, M_bind. simpl.
  unfold subprocess_run_check. case_decide; [apply Hk|done].
Qed.

Lemma skip_trace (rest : list action) (k : M unit) (w : world) :
  (∀ w, k w = for_each (flat_map action_events rest) perform w) →
  (mret () ;; k) w = for_each (flat_map action_events rest) perform w.
Proof. intros Hk. unfold mbind, M_bind. simpl. apply Hk. Qed.

Lemma apply_monitor_config_trace (table : gmap string string)
    (mc : MonitorProfile.t) (w : world) :
  apply_monitor_config table mc w
  = for_each (profile_events table mc) perform w.
Proof.
  unfold apply_monitor_config, profile_events, profile_actions.
  destruct (resolve table (MonitorProfile.description mc)) as [n|]; [|done].
  assert (Hpos : ∀ w,
    set_position n
      (default 0 (Position.x (default (Position.Make (Some 0) (Some 0))
                                      (MonitorProfile.position mc))))
      (default 0 (Position.y (default (Position.Make (Some 0) (Some 0))
                                      (MonitorProfile.position mc)))) w
    = for_each (flat_map action_events
                  [position_action (MonitorProfile.position mc) n])
               perform w).
  { intros w'. by apply (action_trace _ (position_action _ n)). }
  assert (Hrot : ∀ w,
    (match MonitorProfile.transform mc with
     | Some rotation =>
         if Py.truthy rotation then set_rotation n rotation else mret ()
     | None => mret ()
     end ;;
     set_position n
       (default 0 (Position.x (default (Position.Make (Some 0) (Some 0))
                                       (MonitorProfile.position mc))))
       (default 0 (Position.y (default (Position.Make (Some 0) (Some 0))
                                       (MonitorProfile.position mc))))) w
    = for_each (flat_map action_events
                  (transform_actions (MonitorProfile.transform mc) n
                   ++ [position_action (MonitorProfile.position mc) n]))
               perform w).
  { intros w'. unfold transform_actions.
    destruct (MonitorProfile.transform mc) as [rotation|];
      [destruct (Py.truthy rotation)|].
    - by apply (actions_trace_app (SetTransform n rotation)).
    - by apply skip_trace.
    - by apply skip_trace. }
  unfold state_actions.
  destruct (String.eqb _ "enable"); [|destruct (String.eqb _ "disable")].
  - by apply (actions_trace_app (Enable n)).
  - by apply (actions_trace_app (Disable n)).
  - by apply skip_trace.
Qed.

Lemma flat_map_fmap {A B C} (f : A → B) (g : B → list C) (l : list A) :
  flat_map g (f <$> l) = flat_map (λ a, g (f a)) l.
Proof. induction l as [|a l IH]; [done|]. cbn. by f_equal. Qed.

Lemma activate_trace (W : Workspace.t) (L : list Output.t) (w : world) :
  activate W L w
  = for_each (activation_events
                (set_iter (monitors_to_disable (description_to_output L)
                                               (Workspace.monitors W) L))
                (description_to_output L) (Workspace.monitors W))
             perform w.
Proof.
  unfold activate, activation_events. rewrite for_each_app.
  unfold mbind, M_bind.
  rewrite (for_each_flat_map (λ n, action_events (Disable n)))
    by (intros; apply disable_monitor_trace).
  rewrite flat_map_fmap.
  destruct (for_each _ perform w) as [[[]|e] w1]; [|done].
  apply for_each_flat_map. intros. apply apply_monitor_config_trace.
Qed.

End Activation.

(** ** The lookup table and the two passes *)
Section Lookup.

Lemma foldl_snoc_omap {A B} (f : A → option B) (l : list A) (acc : list B) :
  foldl (λ (acc : list B) a,
           match f a with Some b => acc ++ [b] | None => acc end) acc l
  = acc ++ omap f l.
Proof.
  revert acc. induction l as [|a l IH]; intros acc; simpl.
  - by rewrite app_nil_r.
  - rewrite IH. destruct (f a); [by rewrite <- app_assoc|done].
Qed.

Lemma workspace_output_names_resolved (table : gmap string string)
    (monitors : list MonitorProfile.t) :
  workspace_output_names table monitors = resolved_names table monitors.
Proof. unfold workspace_output_names. by rewrite foldl_snoc_omap. Qed.

(** A description looks up the name of the last live output that has it. *)
Lemma description_to_output_lookup (L : list Output.t) (d : string) :
  description_to_output L !! d
  = Output.name <$> last (filter (λ o, describe o = d) L).
Proof.
  unfold description_to_output.
  induction L as [|o L IH] using rev_ind; [done|].
  rewrite foldl_app. simpl. rewrite filter_app, lookup_insert.
  rewrite filter_cons, filter_nil. case_decide.
  - by rewrite last_snoc.
  - by rewrite app_nil_r.
Qed.

Lemma description_to_output_Some (L : list Output.t) (d n : string) :
  description_to_output L !! d = Some n →
  ∃ o, o ∈ L ∧ describe o = d ∧ Output.name o = n.
Proof.
  rewrite description_to_output_lookup.
  destruct (last _) as [o|] eqn:Hlast; [|done].
  intros [= <-]. exists o. apply last_Some_elem_of in Hlast.
  apply list_elem_of_filter in Hlast as [? ?]. done.
Qed.


(** With pairwise distinct descriptions every live output is found under
    its own description. *)
Lemma description_to_output_own (L : list Output.t) (o : Output.t) :
  NoDup (describe <$> L) → o ∈ L →
  description_to_output L !! describe o = Some (Output.name o).
Proof.
  intros Hnd Ho.
  destruct (description_to_output L !! describe o) as [n|] eqn:Hn.
  - apply description_to_output_Some in Hn as (o' & Ho' & Hd & <-).
    f_equal. f_equal.
    apply list_elem_of_lookup in Ho as [i Hi].
    apply list_elem_of_lookup in Ho' as [j Hj].
    assert (i = j) as ->; [|congruence].
    eapply NoDup_lookup; [exact Hnd| |];
      rewrite list_lookup_fmap; [by rewrite Hi|rewrite Hj; simpl; by rewrite Hd].
  - rewrite description_to_output_lookup in Hn.
    apply fmap_None, last_None in Hn.
    assert (o ∈ filter (λ o', describe o' = describe o) L) as Hin
      by by apply list_elem_of_filter.
    rewrite Hn in Hin. by apply not_elem_of_nil in Hin.
Qed.

Lemma resolve_Some (table : gmap string string) (d n : string) :
  resolve table d = Some n ↔ table !! d = Some n ∧ n ≠ "".
Proof.
  unfold resolve. destruct (table !! d) as [m|].
  - destruct m as [|c m]; simpl.
    + split; [done|]. by intros [[= <-] Hn].
    + split; [by intros [= <-]|]. by intros [[= <-] _].
  - split; [done|]. by intros [? _].
Qed.

Lemma resolve_live (L : list Output.t) (d n : string) :
  resolve (description_to_output L) d = Some n → n ∈ Output.name <$> L.
Proof.
  intros [Hn _]%resolve_Some.
  apply description_to_output_Some in Hn as (o & Ho & _ & <-).
  by apply list_elem_of_fmap_2.
Qed.

Lemma elem_of_monitors_to_disable (table : gmap string string)
    (monitors : list MonitorProfile.t) (L : list Output.t) (n : string) :
  n ∈ monitors_to_disable table monitors L
  ↔ n ∈ Output.name <$> L ∧ n ∉ resolved_names table monitors.
Proof.
  unfold monitors_to_disable.
  rewrite workspace_output_names_resolved.
  rewrite elem_of_difference, !elem_of_list_to_set. done.
Qed.

Lemma elem_of_set_iter `{Env} (s : gset string) (n : string) :
  n ∈ set_iter s ↔ n ∈ s.
Proof. rewrite (set_iter_perm s). apply elem_of_elements. Qed.


End Lookup.

(** ** What an activation issues *)
Section ActivationFacts.
Context `{Env}.

Lemma runs_actions (acts : list action) :
  runs (flat_map action_events acts) = argv_of <$> acts.
Proof. induction acts as [|a acts IH]; [done|]. cbn. by f_equal. Qed.

Lemma says_actions (acts : list action) :
  says (flat_map action_events acts) = line_of <$> acts.
Proof. induction acts as [|a acts IH]; [done|]. cbn. by f_equal. Qed.

Lemma runs_profile_events (table : gmap string string)
    (mc : MonitorProfile.t) :
  runs (profile_events table mc) = argv_of <$> profile_actions table mc.
Proof.
  unfold profile_events, profile_actions.
  destruct (resolve table _); [apply runs_actions|done].
Qed.

Lemma runs_activation_events (disabled : list string)
    (table : gmap string string) (monitors : list MonitorProfile.t) :
  runs (activation_events disabled table monitors)
  = argv_of <$> activation_actions disabled table monitors.
Proof.
  unfold activation_events, activation_actions, runs.
  rewrite omap_app, fmap_app. f_equal; [apply runs_actions|].
  induction monitors as [|mc monitors IH]; [done|].
  simpl. rewrite omap_app, fmap_app. f_equal; [apply runs_profile_events|done].
Qed.

(** When every command succeeds, activation returns, having issued the
    first pass over [set_iter (monitors_to_disable ...)] and then every
    configuration's actions. *)
Lemma activate_succeeds (W : Workspace.t) (L : list Output.t) (w : world) :
  (∀ history argv, swaymsg_returncode history argv = 0) →
  activate W L w
  = (Returned (),
     after (activation_events
              (set_iter (monitors_to_disable
                           (description_to_output L) (Workspace.monitors W) L))
              (description_to_output L) (Workspace.monitors W)) w).
Proof. intros Hok. rewrite activate_trace. by apply run_trace. Qed.

Lemma profile_actions_live (L : list Output.t) (mc : MonitorProfile.t) :
  Forall (λ a, target a ∈ Output.name <$> L)
         (profile_actions (description_to_output L) mc).
Proof.
  unfold profile_actions.
  destruct (resolve _ _) as [n|] eqn:Hn; [|done].
  apply resolve_live in Hn.
  unfold state_actions, transform_actions.
  repeat apply Forall_app_2; repeat case_match;
    repeat constructor; done.
Qed.

Lemma activation_actions_live (W : Workspace.t) (L : list Output.t) :
  Forall (λ a, target a ∈ Output.name <$> L)
         (activation_actions
            (set_iter (monitors_to_disable
                         (description_to_output L) (Workspace.monitors W) L))
            (description_to_output L) (Workspace.monitors W)).
Proof.
  unfold activation_actions. apply Forall_app_2.
  - apply Forall_fmap, Forall_forall. intros n Hn. simpl.
    apply elem_of_set_iter, elem_of_monitors_to_disable in Hn. tauto.
  - induction (Workspace.monitors W) as [|mc monitors IH]; [done|].
    simpl. apply Forall_app_2; [apply profile_actions_live|done].
Qed.




End ActivationFacts.

(** * The claims *)

(** ** Activation *)
Section ActivationClaims.
Context `{Env}.


(** C2.  Whatever the compositor answers, every command an activation
    issues is the command of an action on an output whose name occurs in
    the live output list. *)
Theorem activate_only_live_outputs (W : Workspace.t) (L : list Output.t)
    (w : world) :
  ∃ new,
    issued (activate W L w).2 = issued w ++ new
    ∧ Forall (λ argv, ∃ a, argv = argv_of a ∧ target a ∈ Output.name <$> L)
             new.
Proof.
  rewrite activate_trace.
  destruct (run_trace_prefix
              (activation_events
                 (set_iter (monitors_to_disable (description_to_output L)
                                                (Workspace.monitors W) L))
                 (description_to_output L) (Workspace.monitors W)) w)
    as (new & Hnew & [rest Hrest] & _).
  exists new. split; [done|].
  rewrite runs_activation_events in Hrest.
  assert (Forall (λ argv, ∃ a, argv = argv_of a
                               ∧ target a ∈ Output.name <$> L)
                 (new ++ rest)) as Hall.
  { rewrite <- Hrest. apply Forall_fmap.
    eapply Forall_impl; [apply activation_actions_live|].
    intros a Ha. by exists a. }
  by apply Forall_app in Hall as [? _].
Qed.

End ActivationClaims.

Section ActivationExamples.
Context `{Env}.

Lemma set_iter_singleton (n : string) : set_iter {[n]} = [n].
Proof.
  apply Permutation_singleton_r.
  rewrite (set_iter_perm {[n]}). by rewrite elements_singleton.
Qed.

(** C3.  With HDMI-1 (Dell U2, on) and DP-1 (LG 5K, off, whatever its
    transform and position) live, activating the workspace "work" disables
    DP-1 and then enables HDMI-1, rotates it to 90 and puts it at 0,0,
    when every command succeeds. *)
Theorem activate_spec_example (transform : option string)
    (rect : option Position.t) (w : world) :
  (∀ history argv, swaymsg_returncode history argv = 0) →
  ∃ w',
    activate Example.work [Example.hdmi; Example.dp transform rect] w
    = (Returned (), w')
    ∧ issued w'
      = issued w
        ++ [["swaymsg"; "output"; "DP-1"; "disable"];
            ["swaymsg"; "output"; "HDMI-1"; "enable"];
            ["swaymsg"; "output"; "HDMI-1"; "transform"; "90"];
            ["swaymsg"; "output"; "HDMI-1"; "position"; "0"; "0"]].
Proof.
  intros Hok. eexists. split; [by apply activate_succeeds|].
  unfold after. simpl. f_equal. rewrite runs_activation_events.
  replace (monitors_to_disable _ _ _) with ({["DP-1"]} : gset string)
    by (vm_compute; reflexivity).
  rewrite set_iter_singleton. vm_compute. reflexivity.
Qed.


End ActivationExamples.



Lemma activate_spec_example_witness :
  ∃ w',
    activate (H:=Example.quiet) Example.work
             [Example.hdmi; Example.dp None None] fresh
    = (Returned (), w')
    ∧ issued w'
      = issued fresh
        ++ [["swaymsg"; "output"; "DP-1"; "disable"];
            ["swaymsg"; "output"; "HDMI-1"; "enable"];
            ["swaymsg"; "output"; "HDMI-1"; "transform"; "90"];
            ["swaymsg"; "output"; "HDMI-1"; "position"; "0"; "0"]].
Proof.
  exact (activate_spec_example (H:=Example.quiet) None None fresh
           (λ _ _, eq_refl)).
Defined.


(** ** Capturing the current layout *)
Section Capture.
Context `{Env}.

Lemma captureCurrentAsProfile_snoc (L : list Output.t) (o : Output.t) :
  captureCurrentAsProfile (L ++ [o])
  = captureCurrentAsProfile L
    ++ (if Output.active o then [captured_profile o] else []).
Proof.
  unfold captureCurrentAsProfile. rewrite foldl_app. simpl.
  destruct (Output.active o); simpl; [done|by rewrite app_nil_r].
Qed.

(** The capture loop records exactly the active outputs, in order. *)
Lemma captureCurrentAsProfile_active (L : list Output.t) :
  captureCurrentAsProfile L
  = captured_profile <$> filter (λ o, Is_true (Output.active o)) L.
Proof.
  induction L as [|o L IH] using rev_ind; [done|].
  rewrite captureCurrentAsProfile_snoc, IH, filter_app, fmap_app.
  f_equal. rewrite filter_cons, filter_nil.
  destruct (Output.active o); by case_decide.
Qed.

Lemma sway_apply_action (enabled : gset string) (a : action) :
  sway_apply enabled (argv_of a)
  = match a with
    | Enable output => {[output]} ∪ enabled
    | Disable output => enabled ∖ {[output]}
    | _ => enabled
    end.
Proof. by destruct a. Qed.

Lemma enabled_after_app (c1 c2 : list (list string)) (enabled : gset string) :
  enabled_after (c1 ++ c2) enabled
  = enabled_after c2 (enabled_after c1 enabled).
Proof. apply foldl_app. Qed.

Lemma enabled_after_cons (c : list string) (cs : list (list string))
    (enabled : gset string) :
  enabled_after (c :: cs) enabled = enabled_after cs (sway_apply enabled c).
Proof. done. Qed.

Lemma enabled_after_disables (disabled : list string)
    (enabled : gset string) :
  enabled_after (argv_of <$> (Disable <$> disabled)) enabled
  = enabled ∖ list_to_set disabled.
Proof.
  revert enabled. induction disabled as [|n disabled IH]; intros enabled.
  - rewrite list_to_set_nil. unfold enabled_after. simpl.
    by rewrite difference_empty_L.
  - rewrite !fmap_cons, enabled_after_cons, sway_apply_action, IH.
    rewrite list_to_set_cons. set_solver.
Qed.

(** The actions after the enable leave the set of enabled outputs alone. *)
Lemma enabled_after_settings (transform : option string)
    (position : option Position.t) (output : string)
    (enabled : gset string) :
  enabled_after
    (argv_of <$> transform_actions transform output
                 ++ [position_action position output]) enabled
  = enabled.
Proof.
  unfold transform_actions.
  destruct transform as [rotation|]; [destruct (Py.truthy rotation)|];
    reflexivity.
Qed.

(** What a captured profile asks for when its output is found under its
    own description: enabling it, then settings. *)
Lemma enabled_after_captured (L actives : list Output.t)
    (enabled : gset string) :
  (∀ o, o ∈ actives →
        resolve (description_to_output L) (describe o)
        = Some (Output.name o)) →
  enabled_after
    (argv_of <$> flat_map (profile_actions (description_to_output L))
                          (captured_profile <$> actives))
    enabled
  = enabled ∪ list_to_set (Output.name <$> actives).
Proof.
  revert enabled. induction actives as [|o actives IH];
    intros enabled Hown.
  - unfold enabled_after. simpl. by rewrite union_empty_r_L.
  - rewrite !fmap_cons, list_to_set_cons. simpl flat_map.
    rewrite fmap_app, enabled_after_app, IH
      by (intros; apply Hown; by right).
    unfold profile_actions at 1. unfold captured_profile at 1.
    simpl MonitorProfile.description. rewrite Hown by left.
    simpl MonitorProfile.state. simpl MonitorProfile.transform.
    simpl MonitorProfile.position.
    change (state_actions (Some "enable") (Output.name o))
      with [Enable (Output.name o)].
    rewrite <- app_comm_cons, fmap_cons, enabled_after_cons.
    rewrite sway_apply_action, app_nil_l.
    match goal with
    | |- enabled_after ?cs ?S ∪ _ = _ =>
        replace (enabled_after cs S) with S
          by (symmetry; apply enabled_after_settings)
    end.
    set_solver.
Qed.

Lemma resolved_names_captured (L actives : list Output.t) :
  (∀ o, o ∈ actives →
        resolve (description_to_output L) (describe o)
        = Some (Output.name o)) →
  resolved_names (description_to_output L) (captured_profile <$> actives)
  = Output.name <$> actives.
Proof.
  intros Hown. unfold resolved_names.
  induction actives as [|o actives IH]; [done|].
  cbn. rewrite Hown by left. f_equal. apply IH. intros. apply Hown. by right.
Qed.

(** C5 (amended).  The capture records one profile for each active live
    output, in order, and none for an inactive one: its derived
    description, state "enable", its transform ("normal" if none is
    reported) and its position.  If moreover the live outputs have pairwise
    distinct descriptions, the active ones have non-empty names and every
    compositor command succeeds, then activating the captured workspace
    against the same outputs leaves exactly the active outputs enabled. *)
Theorem capture_then_activate (name : string) (L : list Output.t)
    (w : world) :
  captureCurrentAsProfile L
  = captured_profile <$> filter (λ o, Is_true (Output.active o)) L
  ∧ ((∀ history argv, swaymsg_returncode history argv = 0) →
     NoDup (describe <$> L) →
     (∀ o, o ∈ L → Output.active o → Output.name o ≠ EmptyString) →
     ∃ w' new,
       activate (Workspace.Make name (captureCurrentAsProfile L)) L w
       = (Returned (), w')
       ∧ issued w' = issued w ++ new
       ∧ enabled_after new (active_names L) = active_names L).
Proof.
  split; [apply captureCurrentAsProfile_active|].
  intros Hok Hdistinct Hnamed.
  assert (∀ o, o ∈ filter (λ o, Is_true (Output.active o)) L →
               resolve (description_to_output L) (describe o)
               = Some (Output.name o)) as Hown.
  { intros o [Hactive Ho]%list_elem_of_filter. apply resolve_Some.
    split; [by apply description_to_output_own|by apply Hnamed]. }
  do 2 eexists. split; [by apply activate_succeeds|].
  unfold after. simpl issued. split; [reflexivity|].
  rewrite runs_activation_events. unfold activation_actions.
  rewrite fmap_app, enabled_after_app, enabled_after_disables.
  simpl Workspace.monitors. rewrite captureCurrentAsProfile_active.
  rewrite enabled_after_captured by done.
  unfold active_names. apply set_eq. intros n.
  rewrite elem_of_union, elem_of_difference, !elem_of_list_to_set.
  rewrite elem_of_set_iter, elem_of_monitors_to_disable.
  rewrite resolved_names_captured by done. tauto.
Qed.

End Capture.

(** C5 as stated fails: of two active monitors with the same description
    only the one listed last is found, and the other is switched off. *)
Lemma capture_round_trip_fails :
  ∃ w',
    activate (H:=Example.quiet)
             (Workspace.Make "now" (captureCurrentAsProfile Example.twins))
             Example.twins fresh
    = (Returned (), w')
    ∧ enabled_after (issued w') (active_names Example.twins)
      = {["DP-2"]}
    ∧ active_names Example.twins = {["DP-1"; "DP-2"]}
    ∧ enabled_after (issued w') (active_names Example.twins)
      ≠ active_names Example.twins.
Proof.
  eexists. split; [vm_compute; reflexivity|].
  split; [vm_compute; reflexivity|]. split; [vm_compute; reflexivity|].
  intros Heq. apply (f_equal elements) in Heq. vm_compute in Heq.
  discriminate.
Qed.

Lemma capture_then_activate_witness :
  captureCurrentAsProfile [Example.hdmi; Example.dp None None]
  = captured_profile
      <$> filter (λ o, Is_true (Output.active o))
                 [Example.hdmi; Example.dp None None]
  ∧ ∃ w' new,
      activate (H:=Example.quiet)
        (Workspace.Make "now"
           (captureCurrentAsProfile [Example.hdmi; Example.dp None None]))
        [Example.hdmi; Example.dp None None] fresh
      = (Returned (), w')
      ∧ issued w' = issued fresh ++ new
      ∧ enabled_after new (active_names [Example.hdmi; Example.dp None None])
        = active_names [Example.hdmi; Example.dp None None].
Proof.
  destruct (capture_then_activate (H:=Example.quiet) "now"
              [Example.hdmi; Example.dp None None] fresh) as [Hcap Hround].
  split; [exact Hcap|]. apply Hround.
  - reflexivity.
  - vm_compute. repeat constructor; set_solver.
  - intros o Ho _. repeat (apply elem_of_cons in Ho as [->|Ho]);
      [discriminate..|by apply not_elem_of_nil in Ho].
Defined.

(** ** The workspace store *)
Section StoreClaims.
Context `{Env}.

Lemma load_workspaces_parsed (w : world) (text : string) (d : Store.t) :
  files w !! WORKSPACES_FILE = Some text → json_load text = Some d →
  load_workspaces w = (Returned d, said ["2"] w).
Proof.
  intros Hfile Hjson. unfold load_workspaces, mbind, M_bind, read_file.
  rewrite Hfile. simpl. by rewrite Hjson.
Qed.



End StoreClaims.



(** ** The compositor client *)
Section ClientClaims.
Context `{Env}.

(** C8 (amended).  Enabling or disabling an output prints its line, runs
    the command and returns when the exit status is zero; a non-zero exit
    status is raised to the caller as [CalledProcessError], carrying the
    status and the command. *)
Theorem setEnabled_checks_exit_status (output : string) (enabled : bool)
    (w : world) :
  let a := if enabled then Enable output else Disable output in
  let returncode := swaymsg_returncode (issued w) (argv_of a) in
  setEnabled output enabled w
  = (if decide (returncode = 0) then Returned ()
     else Raised (CalledProcessError returncode (argv_of a)),
     World (files w) (writes w) (stdout w ++ [line_of a])
           (issued w ++ [argv_of a]) (asked w)).
Proof.
  destruct enabled; simpl;
    unfold enable_monitor, disable_monitor, mbind, M_bind; simpl;
    unfold subprocess_run_check; simpl; by case_decide.
Qed.

End ClientClaims.

(** C8 as stated fails: when [swaymsg] exits with status 1, enabling an
    output raises. *)
Lemma setEnabled_not_fire_and_forget :
  setEnabled (H:=Example.failing) "HDMI-1" true fresh
  = (Raised (CalledProcessError 1 ["swaymsg"; "output"; "HDMI-1"; "enable"]),
     World ∅ [] ["Enabling monitor: HDMI-1"]
           [["swaymsg"; "output"; "HDMI-1"; "enable"]] [])
  ∧ ¬ fire_and_forget (setEnabled (H:=Example.failing) "HDMI-1" true).
Proof.
  split; [reflexivity|]. intros Hff. destruct (Hff fresh) as [w' Hw'].
  discriminate Hw'.
Qed.

(** ** Creating and deleting workspaces *)
Section Workspaces.
Context `{Env}.

Lemma existsb_name (workspaces : list Workspace.t) (n : string) :
  existsb (λ ws, String.eqb (Workspace.name ws) n) workspaces = true
  ↔ n ∈ Workspace.name <$> workspaces.
Proof.
  rewrite existsb_exists, list_elem_of_fmap. split.
  - intros (ws & Hws & Heq). apply String.eqb_eq in Heq.
    apply list_elem_of_In in Hws. by exists ws.
  - intros (ws & -> & Hws). exists ws.
    split; [by apply list_elem_of_In|apply String.eqb_refl].
Qed.

(** C9.  When the store on disk holds a workspace whose name is the
    (stripped) name the user asks for, both creation paths return after
    reporting it: no file is written, no subprocess is run, and the only
    lines printed are the loader's and the report. *)
Theorem create_duplicate_aborts (w : world) (text : string) (d : Store.t)
    (workspaces : list Workspace.t) (answer : string) :
  files w !! WORKSPACES_FILE = Some text →
  json_load text = Some d →
  Store.workspaces d = Some workspaces →
  Py.strip answer ∈ Workspace.name <$> workspaces →
  (prompt_text (asked w) "Enter the name for the new workspace:"
   = Some answer →
   ∃ w', create_new_workspace w = (Returned (), w')
         ∧ files w' = files w ∧ writes w' = writes w
         ∧ issued w' = issued w
         ∧ stdout w' = stdout w ++ ["2"; name_report answer])
  ∧ (prompt_text (asked w)
       "Enter the name for the new workspace based on current settings:"
     = Some answer →
     ∃ w', create_current_as_workspace w = (Returned (), w')
           ∧ files w' = files w ∧ writes w' = writes w
           ∧ issued w' = issued w
           ∧ stdout w' = stdout w ++ ["2"; name_report answer]).
Proof.
  intros Hfile Hjson Hws Hdup.
  apply existsb_name in Hdup.
  split; intros Hanswer.
  - unfold create_new_workspace, mbind, M_bind.
    rewrite (load_workspaces_parsed w text d) by done.
    unfold ask_text. simpl. rewrite Hanswer. unfold name_report.
    destruct (Py.truthy (Py.strip answer)); simpl.
    + rewrite Hws, Hdup. simpl. eexists. split; [reflexivity|].
      simpl. by rewrite <- app_assoc.
    + eexists. split; [reflexivity|]. simpl. by rewrite <- app_assoc.
  - unfold create_current_as_workspace, mbind, M_bind.
    rewrite (load_workspaces_parsed w text d) by done.
    unfold ask_text. simpl. rewrite Hanswer. unfold name_report.
    destruct (Py.truthy (Py.strip answer)); simpl.
    + rewrite Hws, Hdup. simpl. eexists. split; [reflexivity|].
      simpl. by rewrite <- app_assoc.
    + eexists. split; [reflexivity|]. simpl. by rewrite <- app_assoc.
Qed.

Lemma remove_named_filter (workspaces : list Workspace.t) (n : string) :
  remove_named workspaces n
  = filter (λ ws, Workspace.name ws ≠ n) workspaces.
Proof.
  unfold remove_named. induction workspaces as [|ws workspaces IH]; [done|].
  simpl. rewrite filter_cons, IH.
  destruct (String.eqb_spec (Workspace.name ws) n); simpl;
    by case_decide.
Qed.

(** Removing the selected names one after the other keeps exactly the
    workspaces whose name was not selected. *)
Lemma foldl_remove_named (selected : list string)
    (workspaces : list Workspace.t) :
  foldl remove_named workspaces selected
  = filter (λ ws, Workspace.name ws ∉ selected) workspaces.
Proof.
  revert workspaces. induction selected as [|n selected IH];
    intros workspaces; simpl.
  - induction workspaces as [|ws workspaces IHw]; [done|].
    rewrite filter_cons_True by apply not_elem_of_nil. by f_equal.
  - rewrite IH, remove_named_filter, list_filter_filter.
    apply list_filter_iff. intros ws. rewrite not_elem_of_cons. tauto.
Qed.

Lemma deletion_loop (selected : list string) (workspaces : list Workspace.t)
    (w : world) :
  for_fold selected workspaces
    (λ workspaces ws_name,
       print ("Workspace '" +:+ ws_name +:+ "' deleted.") ;;
       mret (remove_named workspaces ws_name)) w
  = (Returned (foldl remove_named workspaces selected),
     said ((λ ws_name, "Workspace '" +:+ ws_name +:+ "' deleted.")
           <$> selected) w).
Proof.
  revert workspaces w. induction selected as [|n selected IH];
    intros workspaces w.
  - simpl. unfold said. simpl. rewrite app_nil_r. by destruct w.
  - simpl. unfold mbind, M_bind. simpl. rewrite IH.
    unfold said. simpl. by rewrite <- app_assoc.
Qed.

(** C10.  Deleting the selected names removes from the store every
    workspace whose name is selected, duplicates included, keeps the
    others in order, and writes the workspaces file once, after all the
    names have been processed. *)
Theorem delete_removes_every_match (w : world) (text : string) (d : Store.t)
    (workspaces : list Workspace.t) (selected : list string) :
  files w !! WORKSPACES_FILE = Some text →
  json_load text = Some d →
  Store.workspaces d = Some workspaces →
  workspaces ≠ [] →
  prompt_checkbox (asked w) "Select workspaces to delete:"
                  (Workspace.name <$> workspaces) = Some selected →
  selected ≠ [] →
  let remaining :=
    filter (λ ws, Workspace.name ws ∉ selected) workspaces in
  let saved := json_dump (Store.Make (Some remaining)) in
  ∃ w', delete_workspace w = (Returned (), w')
        ∧ writes w' = writes w ++ [(WORKSPACES_FILE, saved)]
        ∧ files w' = <[WORKSPACES_FILE := saved]> (files w)
        ∧ issued w' = issued w.
Proof.
  intros Hfile Hjson Hws Hsome Hanswer Hselected remaining saved.
  unfold delete_workspace, mbind, M_bind.
  rewrite (load_workspaces_parsed w text d) by done.
  rewrite Hws. destruct workspaces as [|ws0 workspaces]; [done|].
  unfold ask_checkbox, said. cbn [asked]. rewrite Hanswer.
  destruct selected as [|n selected]; [done|].
  cbv beta iota. rewrite deletion_loop, foldl_remove_named.
  eexists. split; [reflexivity|]. done.
Qed.

End Workspaces.

Lemma create_duplicate_aborts_witness :
  let user := scripted 0 EmptyString (Some " work ") None None in
  let w := with_file (Codec.json_dump Example.store) in
  (∃ w', create_new_workspace (H:=user) w = (Returned (), w')
         ∧ files w' = files w ∧ writes w' = writes w
         ∧ issued w' = issued w
         ∧ stdout w' = stdout w ++ ["2"; name_report " work "])
  ∧ (∃ w', create_current_as_workspace (H:=user) w = (Returned (), w')
           ∧ files w' = files w ∧ writes w' = writes w
           ∧ issued w' = issued w
           ∧ stdout w' = stdout w ++ ["2"; name_report " work "]).
Proof.
  intros user w.
  destruct (create_duplicate_aborts (H:=user) w
              (Codec.json_dump Example.store) Example.store
              [Example.work; Example.away; Workspace.Make "work" []]
              " work ") as [Hnew Hcurrent].
  - reflexivity.
  - vm_compute. reflexivity.
  - reflexivity.
  - vm_compute. apply list_elem_of_here.
  - split; [apply Hnew|apply Hcurrent]; reflexivity.
Defined.

Lemma delete_removes_every_match_witness :
  let user := scripted 0 EmptyString None None (Some ["work"]) in
  let w := with_file (Codec.json_dump Example.store) in
  let saved := Codec.json_dump (Store.Make (Some [Example.away])) in
  ∃ w', delete_workspace (H:=user) w = (Returned (), w')
        ∧ writes w' = writes w ++ [(WORKSPACES_FILE, saved)]
        ∧ files w' = <[WORKSPACES_FILE := saved]> (files w)
        ∧ issued w' = issued w.
Proof.
  intros user w saved.
  apply (delete_removes_every_match (H:=user) w
           (Codec.json_dump Example.store) Example.store
           [Example.work; Example.away; Workspace.Make "work" []]
           ["work"]).
  - reflexivity.
  - vm_compute. reflexivity.
  - reflexivity.
  - discriminate.
  - reflexivity.
  - discriminate.
Defined.
